(** * The sample application's configuration holder

    A shallow embedding of
    [examples/deadline/All-In-AWS-Infrastructure-Basic/python/package/config.py]:
    the class [AppConfig], whose [__init__] assigns six attributes on [self],
    and the module-level binding [config = AppConfig()].

    Python objects are dynamically typed and live in a heap; an instance is a
    mutable attribute dictionary, and the dict and list literals of
    [__init__] allocate fresh mutable objects.  Attribute reads and writes can
    raise, so the code is embedded in a state-and-exception monad. *)

From stdpp Require Import gmap strings list fin_maps.

Open Scope string_scope.

(** ** Values and objects *)

(** Modelled from the spec: the enumeration [MongoDbSsplLicenseAcceptance] is
    imported from [aws_rfdk] and its declaration is not part of [config.py].
    The data model calls it an "enumerated value (accepted / rejected)"; the
    member names are the two that [config.py] mentions. *)
Inductive MongoDbSsplLicenseAcceptance : Set :=
  | USER_REJECTS_SSPL
  | USER_ACCEPTS_SSPL.

#[global] Instance MongoDbSsplLicenseAcceptance_eq_dec :
  EqDecision MongoDbSsplLicenseAcceptance.
Proof. solve_decision. Defined.

(** Heap addresses: the identity of a mutable object. *)
Abbreviation addr := positive (only parsing).

(** A Python value: immediate data, or a reference to a heap object. *)
Inductive value : Set :=
  | VNone
  | VBool (b : bool)
  | VStr (s : string)
  | VEnum (e : MongoDbSsplLicenseAcceptance)
  | VRef (a : addr).

#[global] Instance value_eq_dec : EqDecision value.
Proof. solve_decision. Defined.

(** A heap object: a [dict] with string keys, a [list], or a class instance
    with its class name and its [__dict__]. *)
Inductive obj : Type :=
  | ODict (items : gmap string value)
  | OList (elems : list value)
  | OInstance (cls : string) (attrs : gmap string value).

(** The interpreter state: the heap, and the module's global namespace. *)
Record state : Type := State {
  heap : gmap addr obj;
  globals : gmap string value
}.

(** ** The state-and-exception monad *)

Inductive exn : Set :=
  | AttributeError (name : string)
  | KeyError (key : string)
  | NameError (name : string)
  | TypeError.

Inductive result (A : Type) : Type :=
  | Ok (a : A) (s : state)
  | Raise (e : exn).
Arguments Ok {A} a s.
Arguments Raise {A} e.

Definition Py (A : Type) : Type := state → result A.

#[global] Instance Py_ret : MRet Py := λ A a s, Ok a s.

#[global] Instance Py_bind : MBind Py := λ A B k m s,
  match m s with
  | Ok a s' => k a s'
  | Raise e => Raise e
  end.

(** ** Object-model primitives *)

(** Allocation of a new object at an address the heap does not use. *)
Definition alloc (o : obj) : Py value :=
  λ s, let a := fresh (dom (heap s)) in
       Ok (VRef a) (State (<[a := o]> (heap s)) (globals s)).

(** A dict display [{k1: v1, ...}]: later items override earlier ones. *)
Definition new_dict (items : list (string * value)) : Py value :=
  alloc (ODict (foldl (λ m kv, <[kv.1 := kv.2]> m) ∅ items)).

(** A list display [[v1, ...]]. *)
Definition new_list (elems : list value) : Py value :=
  alloc (OList elems).

(** [object.__new__(cls)]: an instance with an empty [__dict__]. *)
Definition new_instance (cls : string) : Py value :=
  alloc (OInstance cls ∅).

(** [self.name = v] *)
Definition setattr (self : value) (name : string) (v : value) : Py unit :=
  λ s, match self with
       | VRef a =>
           match heap s !! a with
           | Some (OInstance cls attrs) =>
               Ok tt (State (<[a := OInstance cls (<[name := v]> attrs)]> (heap s))
                            (globals s))
           | _ => Raise (AttributeError name)
           end
       | _ => Raise (AttributeError name)
       end.

(** [self.name] *)
Definition getattr (self : value) (name : string) : Py value :=
  λ s, match self with
       | VRef a =>
           match heap s !! a with
           | Some (OInstance cls attrs) =>
               match attrs !! name with
               | Some v => Ok v s
               | None => Raise (AttributeError name)
               end
           | _ => Raise (AttributeError name)
           end
       | _ => Raise (AttributeError name)
       end.

(** [len(v)] *)
Definition len (v : value) : Py nat :=
  λ s, match v with
       | VStr x => Ok (String.length x) s
       | VRef a =>
           match heap s !! a with
           | Some (ODict items) => Ok (size items) s
           | Some (OList elems) => Ok (length elems) s
           | _ => Raise TypeError
           end
       | _ => Raise TypeError
       end.

(** [v[key]] on a dict. *)
Definition getitem (v : value) (key : string) : Py value :=
  λ s, match v with
       | VRef a =>
           match heap s !! a with
           | Some (ODict items) =>
               match items !! key with
               | Some x => Ok x s
               | None => Raise (KeyError key)
               end
           | _ => Raise TypeError
           end
       | _ => Raise TypeError
       end.

(** [list(v.items())] on a dict. *)
Definition items (v : value) : Py (list (string * value)) :=
  λ s, match v with
       | VRef a =>
           match heap s !! a with
           | Some (ODict items) => Ok (map_to_list items) s
           | _ => Raise (AttributeError "items")
           end
       | _ => Raise (AttributeError "items")
       end.

(** [list(v)] on a list: its elements in order. *)
Definition elements_of (v : value) : Py (list value) :=
  λ s, match v with
       | VRef a =>
           match heap s !! a with
           | Some (OList elems) => Ok elems s
           | _ => Raise TypeError
           end
       | _ => Raise TypeError
       end.

(** [v is None] *)
Definition is_None (v : value) : bool :=
  match v with VNone => true | _ => false end.

(** A module-level binding [name = v]. *)
Definition set_global (name : string) (v : value) : Py unit :=
  λ s, Ok tt (State (heap s) (<[name := v]> (globals s))).

(** A read of the module-level name [name]. *)
Definition get_global (name : string) : Py value :=
  λ s, match globals s !! name with
       | Some v => Ok v s
       | None => Raise (NameError name)
       end.

(** ** The source *)

Module AppConfig.

(** [def __init__(self)]: the six assignments, in source order. *)
Definition __init__ (self : value) : Py unit :=
  d ← new_dict [("region", VStr "ami-id")];
  setattr self "deadline_client_linux_ami_map" d;;
  setattr self "ubl_certificate_secret_arn" (VStr "");;
  l ← new_list [];
  setattr self "ubl_licenses" l;;
  setattr self "key_pair_name" (VStr "");;
  setattr self "deploy_mongo_db" (VBool false);;
  setattr self "accept_sspl_license" (VEnum USER_REJECTS_SSPL).

(** The call [AppConfig()]: allocate, initialise, return the instance. *)
Definition call : Py value :=
  self ← new_instance "AppConfig";
  __init__ self;;
  mret self.

End AppConfig.

(** [config: AppConfig = AppConfig()], executed when the module is loaded. *)
Definition config : Py unit :=
  c ← AppConfig.call;
  set_global "config" c.

(** ** Type annotations *)

(** The annotation expressions that occur in the source. *)
Inductive ty : Set :=
  | TStr
  | TBool
  | TOptional (t : ty)
  | TList (t : ty)
  | TMapping (k v : ty)
  | TUsageBasedLicense
  | TMongoDbSsplLicenseAcceptance.

(** Whether a run-time value inhabits an annotation.  Python does not check
    annotations, so this is a property of the values [__init__] stores. *)
Fixpoint conforms (h : gmap addr obj) (t : ty) (v : value) : bool :=
  match t with
  | TStr => match v with VStr _ => true | _ => false end
  | TBool => match v with VBool _ => true | _ => false end
  | TOptional t' => match v with VNone => true | _ => conforms h t' v end
  | TList t' =>
      match v with
      | VRef a =>
          match h !! a with
          | Some (OList elems) => forallb (conforms h t') elems
          | _ => false
          end
      | _ => false
      end
  | TMapping k t' =>
      match v with
      | VRef a =>
          match h !! a with
          | Some (ODict items) =>
              forallb (λ kv, conforms h k (VStr kv.1) && conforms h t' kv.2)
                      (map_to_list items)
          | _ => false
          end
      | _ => false
      end
  | TUsageBasedLicense =>
      match v with
      | VRef a =>
          match h !! a with
          | Some (OInstance cls _) => bool_decide (cls = "UsageBasedLicense")
          | _ => false
          end
      | _ => false
      end
  | TMongoDbSsplLicenseAcceptance =>
      match v with VEnum _ => true | _ => false end
  end.

(** The annotated assignment targets of [__init__], in source order. *)
Definition annotations : list (string * ty) :=
  [ ("deadline_client_linux_ami_map", TMapping TStr TStr);
    ("ubl_certificate_secret_arn", TStr);
    ("ubl_licenses", TList TUsageBasedLicense);
    ("key_pair_name", TOptional TStr);
    ("deploy_mongo_db", TBool);
    ("accept_sspl_license", TMongoDbSsplLicenseAcceptance) ].

Definition field_names : list string := annotations.*1.

(** ** Field-wise comparison *)

(** What a field holds: an immediate value, or the heap object behind a
    reference.  Two fields are equal when they hold equal contents, so a dict
    or a list is compared by what it contains and not by its address. *)
Inductive content : Type :=
  | Immediate (v : value)
  | Object (o : obj).

#[global] Instance obj_eq_dec : EqDecision obj.
Proof. solve_decision. Defined.

#[global] Instance content_eq_dec : EqDecision content.
Proof. solve_decision. Defined.

Definition content_of (h : gmap addr obj) (v : value) : option content :=
  match v with
  | VRef a => Object <$> h !! a
  | _ => Some (Immediate v)
  end.

(** The content of attribute [name] of [x] in state [s], when it can be read. *)
Definition field_content (s : state) (x : value) (name : string) : option content :=
  match getattr x name s with
  | Ok v s' => content_of (heap s') v
  | Raise _ => None
  end.

Definition field_equal (s1 : state) (x : value) (s2 : state) (y : value)
    (name : string) : bool :=
  match field_content s1 x name, field_content s2 y name with
  | Some c1, Some c2 => bool_decide (c1 = c2)
  | _, _ => false
  end.

Definition fieldwise_equal (s1 : state) (x : value) (s2 : state) (y : value) : bool :=
  forallb (field_equal s1 x s2 y) field_names.

(** The comparison as a step of a program: both instances in one state. *)
Definition compare_fields (x y : value) : Py bool :=
  λ s, Ok (fieldwise_equal s x s y) s.

(** ** Outcomes *)

(** Whether a run ended in an exception. *)
Definition is_Raise {A} (r : result A) : bool :=
  match r with Ok _ _ => false | Raise _ => true end.

(** The outcome of a run, without the final state. *)
Definition outcome {A} (r : result A) : A + exn :=
  match r with Ok a _ => inl a | Raise e => inr e end.

(** The state of an interpreter that has allocated and bound nothing. *)
Definition empty_state : state := State ∅ ∅.

(** Read every field of [c], in the order of [field_names]. *)
Definition read_fields (c : value) : Py (list value) :=
  mapM (getattr c) field_names.

(** ** The state a default construction leaves behind *)

(** The [__dict__] of a default instance whose dict literal was allocated at
    [d] and whose list literal was allocated at [l]: the six assignments of
    [__init__], first at the bottom. *)
Definition default_attrs (d l : addr) : gmap string value :=
  <["accept_sspl_license" := VEnum USER_REJECTS_SSPL]>
  (<["deploy_mongo_db" := VBool false]>
  (<["key_pair_name" := VStr ""]>
  (<["ubl_licenses" := VRef l]>
  (<["ubl_certificate_secret_arn" := VStr ""]>
  (<["deadline_client_linux_ami_map" := VRef d]> ∅))))).

(** The heap after [AppConfig()] has run in [s] and put the instance at [a]. *)
Definition constructed (s : state) (a d l : addr) : state :=
  State (<[a := OInstance "AppConfig" (default_attrs d l)]>
         (<[l := OList []]>
          (<[d := ODict {["region" := VStr "ami-id"]}]> (heap s))))
        (globals s).

(** The contents of the six fields of a default instance, in the order of
    [field_names]. *)
Definition default_contents : list content :=
  [ Object (ODict {["region" := VStr "ami-id"]});
    Immediate (VStr "");
    Object (OList []);
    Immediate (VStr "");
    Immediate (VBool false);
    Immediate (VEnum USER_REJECTS_SSPL) ].

(** Three addresses that [s] does not use and that differ from each other. *)
Definition fresh3 (s : state) (a d l : addr) : Prop :=
  heap s !! a = None ∧ heap s !! d = None ∧ heap s !! l = None ∧
  a ≠ d ∧ a ≠ l ∧ d ≠ l.

(** ** Edits and the objects [__init__] can be handed *)

(** [v[key] = x] on a dict. *)
Definition setitem (v : value) (key : string) (x : value) : Py unit :=
  λ s, match v with
       | VRef a =>
           match heap s !! a with
           | Some (ODict items) =>
               Ok tt (State (<[a := ODict (<[key := x]> items)]> (heap s)) (globals s))
           | _ => Raise TypeError
           end
       | _ => Raise TypeError
       end.

(** [v.append(x)] on a list. *)
Definition append (v : value) (x : value) : Py unit :=
  λ s, match v with
       | VRef a =>
           match heap s !! a with
           | Some (OList elems) =>
               Ok tt (State (<[a := OList (elems ++ [x])]> (heap s)) (globals s))
           | _ => Raise (AttributeError "append")
           end
       | _ => Raise (AttributeError "append")
       end.

(** The values of the built-in types [NoneType], [bool], [str], [dict] and
    [list]: objects without a [__dict__], on which an attribute assignment
    raises [AttributeError]. *)
Definition is_builtin (s : state) (v : value) : bool :=
  match v with
  | VNone | VBool _ | VStr _ => true
  | VEnum _ => false
  | VRef a =>
      match heap s !! a with
      | Some (ODict _) | Some (OList _) => true
      | _ => false
      end
  end.

(** A state with one edited instance at address 1: the MongoDB backend
    switched on, and an attribute of the deployer's own. *)
Definition edited_state : state :=
  State {[ 1%positive :=
             OInstance "AppConfig"
               (<["deploy_mongo_db" := VBool true]> {["owner" := VStr "farm"]}) ]}
        ∅.

(** The instance at [a] holds the defaults, with its dict at [d] and its list
    at [l]. *)
Definition default_at (s : state) (a d l : addr) : Prop :=
  heap s !! a = Some (OInstance "AppConfig" (default_attrs d l))
  ∧ heap s !! d = Some (ODict {["region" := VStr "ami-id"]})
  ∧ heap s !! l = Some (OList []).

(** Names that start with two underscores ([__class__], [__dict__], ...) are
    resolved by the class and by [object], not by the instance's [__dict__]
    alone; statements about arbitrary attribute names leave them out. *)
Definition is_dunder (name : string) : bool := String.prefix "__" name.

(** * Verification *)

(** ** Stepping through the monad *)

Lemma bind_Ok {A B} (m : Py A) (k : A → Py B) s a s' :
  m s = Ok a s' → (m ≫= k) s = k a s'.
Proof. intros Hm. unfold mbind, Py_bind. by rewrite Hm. Qed.

Lemma alloc_spec o s :
  ∃ a, heap s !! a = None ∧
       alloc o s = Ok (VRef a) (State (<[a := o]> (heap s)) (globals s)).
Proof.
  exists (fresh (dom (heap s))). split; [|reflexivity].
  apply not_elem_of_dom, is_fresh.
Qed.

Lemma setattr_instance s a cls attrs name v :
  heap s !! a = Some (OInstance cls attrs) →
  setattr (VRef a) name v s
  = Ok tt (State (<[a := OInstance cls (<[name := v]> attrs)]> (heap s)) (globals s)).
Proof. intros Ha. unfold setattr. by rewrite Ha. Qed.

Lemma getattr_instance s a cls attrs name v :
  heap s !! a = Some (OInstance cls attrs) →
  attrs !! name = Some v →
  getattr (VRef a) name s = Ok v s.
Proof. intros Ha Hv. unfold getattr. by rewrite Ha, Hv. Qed.

(** Look an address up in a heap built by inserts at known-distinct places. *)
Ltac py_lookup :=
  cbn [heap];
  repeat (rewrite lookup_insert_ne by done);
  first [ apply lookup_insert_eq | eassumption ].

(** Run the allocation at the head of the program, naming the new address. *)
Ltac py_alloc a Ha :=
  match goal with
  | |- context [ (alloc ?o ≫= _) ?s ] =>
      let E := fresh "E" in
      destruct (alloc_spec o s) as (a & Ha & E);
      rewrite (bind_Ok _ _ _ _ _ E); clear E; cbn [heap globals] in *
  end.

(** Run the attribute assignment at the head of the program. *)
Ltac py_setattr :=
  first [ erewrite bind_Ok by (apply setattr_instance; py_lookup)
        | erewrite setattr_instance by py_lookup ];
  cbn [heap globals].

(** ** What [__init__] and [AppConfig()] compute *)

Lemma init_constructed h g a :
  h !! a = Some (OInstance "AppConfig" ∅) →
  ∃ d l,
    h !! d = None ∧ h !! l = None ∧ d ≠ l ∧
    AppConfig.__init__ (VRef a) (State h g)
    = Ok tt (State (<[a := OInstance "AppConfig" (default_attrs d l)]>
                    (<[l := OList []]>
                     (<[d := ODict {["region" := VStr "ami-id"]}]> h))) g).
Proof.
  intros Ha.
  unfold AppConfig.__init__, new_dict, new_list. cbn [foldl fst snd].
  py_alloc d Hd.
  assert (Had : a ≠ d) by (intros ->; congruence).
  do 2 py_setattr.
  py_alloc l Hl.
  assert (Hal : a ≠ l) by (intros ->; by rewrite lookup_insert_eq in Hl).
  rewrite !lookup_insert_ne in Hl by done.
  assert (Hdl : d ≠ l) by (intros ->; by rewrite lookup_insert_eq in Hl).
  rewrite lookup_insert_ne in Hl by done.
  do 4 py_setattr.
  exists d, l. split_and!; [done..|].
  do 2 f_equal. rewrite !insert_insert_eq.
  rewrite (insert_insert_ne _ l a) by done.
  by rewrite !insert_insert_eq.
Qed.

Lemma call_constructed s :
  ∃ a d l, fresh3 s a d l ∧ AppConfig.call s = Ok (VRef a) (constructed s a d l).
Proof.
  destruct s as [h g]. unfold AppConfig.call, new_instance, fresh3.
  py_alloc a Ha.
  destruct (init_constructed (<[a := OInstance "AppConfig" ∅]> h) g a)
    as (d & l & Hd & Hl & Hdl & Hinit); [apply lookup_insert_eq|].
  assert (Had : a ≠ d) by (intros ->; by rewrite lookup_insert_eq in Hd).
  assert (Hal : a ≠ l) by (intros ->; by rewrite lookup_insert_eq in Hl).
  rewrite lookup_insert_ne in Hd, Hl by done.
  exists a, d, l. split_and!; [done..|].
  rewrite (bind_Ok _ _ _ _ _ Hinit). unfold constructed; cbn [heap globals].
  unfold mret, Py_ret. do 2 f_equal.
  rewrite (insert_insert_ne _ d a), (insert_insert_ne _ l a) by done.
  by rewrite insert_insert_eq.
Qed.

(** A program that starts with [AppConfig()] continues in a constructed state. *)
Lemma call_then {B} (k : value → Py B) s :
  ∃ a d l, fresh3 s a d l ∧
           (AppConfig.call ≫= k) s = k (VRef a) (constructed s a d l).
Proof.
  destruct (call_constructed s) as (a & d & l & Hf & Hc).
  exists a, d, l. split; [done|]. by apply bind_Ok.
Qed.

(** ** Reading a constructed state *)

Section constructed.
Context (s : state) (a d l : addr) (Hfresh : fresh3 s a d l).

Lemma constructed_instance :
  heap (constructed s a d l) !! a = Some (OInstance "AppConfig" (default_attrs d l)).
Proof. apply lookup_insert_eq. Qed.

Lemma constructed_dict :
  heap (constructed s a d l) !! d = Some (ODict {["region" := VStr "ami-id"]}).
Proof. destruct Hfresh as (_ & _ & _ & ? & ? & ?). unfold constructed. py_lookup. Qed.

Lemma constructed_list :
  heap (constructed s a d l) !! l = Some (OList []).
Proof. destruct Hfresh as (_ & _ & _ & ? & ? & ?). unfold constructed. py_lookup. Qed.

(** Construction leaves every object that was already there as it was. *)
Lemma constructed_frame i o :
  heap s !! i = Some o → heap (constructed s a d l) !! i = Some o.
Proof.
  destruct Hfresh as (Ha & Hd & Hl & _). intros Hi.
  unfold constructed; cbn [heap].
  rewrite !lookup_insert_ne; [done|congruence..].
Qed.

Lemma getattr_constructed name v :
  default_attrs d l !! name = Some v →
  getattr (VRef a) name (constructed s a d l) = Ok v (constructed s a d l).
Proof. intros Hv. eapply getattr_instance; [apply constructed_instance | done]. Qed.

Lemma constructed_contents :
  field_content (constructed s a d l) (VRef a) <$> field_names
  = Some <$> default_contents.
Proof.
  unfold field_names, annotations, default_contents, field_content.
  cbn [fmap list_fmap fst].
  repeat (erewrite getattr_constructed by reflexivity). cbn [content_of].
  by rewrite constructed_dict, constructed_list.
Qed.

End constructed.

(** Reads that succeed one by one and leave the state alone succeed in
    sequence, with one value per name. *)
Lemma read_all_Ok c s (names : list string) :
  Forall (λ name, ∃ v, getattr c name s = Ok v s) names →
  ∃ vs, mapM (getattr c) names s = Ok vs s ∧ length vs = length names.
Proof.
  induction 1 as [|name names [v Hv] _ (vs & Hvs & Hlen)].
  - by exists [].
  - exists (v :: vs). split; [|by cbn; rewrite Hlen].
    cbn [mapM]. rewrite (bind_Ok _ _ _ _ _ Hv), (bind_Ok _ _ _ _ _ Hvs).
    reflexivity.
Qed.

(** ** Frames and field-wise equality *)

Lemma content_of_frame (h h' : gmap addr obj) v c :
  (∀ i o, h !! i = Some o → h' !! i = Some o) →
  content_of h v = Some c → content_of h' v = Some c.
Proof.
  intros Hframe. destruct v as [| | | |b]; cbn; try done.
  destruct (h !! b) as [o|] eqn:Hb; [|done].
  by rewrite (Hframe _ _ Hb).
Qed.

(** A field that could be read before some objects were added to the heap
    reads the same afterwards. *)
Lemma field_content_frame s s' x name c :
  (∀ i o, heap s !! i = Some o → heap s' !! i = Some o) →
  field_content s x name = Some c → field_content s' x name = Some c.
Proof.
  intros Hframe. unfold field_content, getattr.
  destruct x as [| | | |b]; try done.
  destruct (heap s !! b) as [[| |cls attrs]|] eqn:Hb; try done.
  rewrite (Hframe _ _ Hb).
  destruct (attrs !! name) as [v|]; [|done].
  by apply content_of_frame.
Qed.

Lemma field_contents_frame s s' x (names : list string) cs :
  (∀ i o, heap s !! i = Some o → heap s' !! i = Some o) →
  field_content s x <$> names = Some <$> cs →
  field_content s' x <$> names = Some <$> cs.
Proof.
  intros Hframe. revert cs.
  induction names as [|name names IH]; intros [|c cs] Hcs; try done.
  cbn in *. injection Hcs as Hc Hcs.
  by rewrite (field_content_frame _ _ _ _ _ Hframe Hc), (IH _ Hcs).
Qed.

(** Two instances whose fields hold the same contents are field-wise equal. *)
Lemma fieldwise_equal_contents s1 x s2 y cs :
  field_content s1 x <$> field_names = Some <$> cs →
  field_content s2 y <$> field_names = Some <$> cs →
  fieldwise_equal s1 x s2 y = true.
Proof.
  unfold fieldwise_equal. generalize field_names as names. intros names. revert cs.
  induction names as [|name names IH]; intros [|c cs] H1 H2; try done.
  cbn in *. injection H1 as Hc1 H1. injection H2 as Hc2 H2.
  apply andb_true_intro. split; [|by eapply IH].
  unfold field_equal. rewrite Hc1, Hc2. by apply bool_decide_eq_true_2.
Qed.

(** The module's load: [config] is bound to a default instance. *)
Lemma config_constructed s :
  ∃ a d l, fresh3 s a d l ∧
    config s = Ok tt (State (heap (constructed s a d l))
                            (<["config" := VRef a]> (globals s))).
Proof.
  destruct (call_then (λ c, set_global "config" c) s) as (a & d & l & Hf & Hc).
  exists a, d, l. split; [done|]. exact Hc.
Qed.

(** ** The default values of the fields *)

(** Run the read [k] of field [name] on a freshly constructed instance. *)
Ltac py_construct_then_read :=
  match goal with
  | |- ∃ s', (AppConfig.call ≫= ?k) ?s = _ =>
      let a := fresh "a" in
      let d := fresh "d" in
      let l := fresh "l" in
      let Hf := fresh "Hfresh" in
      destruct (call_then k s) as (a & d & l & Hf & ->);
      exists (constructed s a d l);
      erewrite bind_Ok by (by apply getattr_constructed)
  end.

(** C2: for every instance produced by the default constructor, reading
    [deploy_mongo_db] yields [False]: the DocumentDB backend is the default. *)
Theorem default_deploy_mongo_db_false (s : state) :
  ∃ s', (c ← AppConfig.call; getattr c "deploy_mongo_db") s = Ok (VBool false) s'.
Proof.
  destruct (call_then (λ c, getattr c "deploy_mongo_db") s)
    as (a & d & l & Hf & ->).
  eexists. by apply getattr_constructed.
Qed.

(** C3: for every instance produced by the default constructor, reading
    [accept_sspl_license] yields [MongoDbSsplLicenseAcceptance.USER_REJECTS_SSPL]. *)
Theorem default_accept_sspl_license_rejects (s : state) :
  ∃ s', (c ← AppConfig.call; getattr c "accept_sspl_license") s
        = Ok (VEnum USER_REJECTS_SSPL) s'.
Proof.
  destruct (call_then (λ c, getattr c "accept_sspl_license") s)
    as (a & d & l & Hf & ->).
  eexists. by apply getattr_constructed.
Qed.

(** C4: for every instance produced by the default constructor,
    [len(deadline_client_linux_ami_map)] is 1: the mapping holds exactly one
    entry. *)
Theorem default_ami_map_one_entry (s : state) :
  ∃ s', (c ← AppConfig.call;
         m ← getattr c "deadline_client_linux_ami_map";
         len m) s = Ok 1 s'.
Proof.
  py_construct_then_read.
  unfold len. by rewrite constructed_dict.
Qed.

(** C5: for every instance produced by the default constructor,
    [ubl_licenses] is a list with no elements. *)
Theorem default_ubl_licenses_empty (s : state) :
  ∃ s', (c ← AppConfig.call;
         u ← getattr c "ubl_licenses";
         elements_of u) s = Ok [] s'.
Proof.
  py_construct_then_read.
  unfold elements_of. by rewrite constructed_list.
Qed.

(** C8: for every instance produced by the default constructor,
    [key_pair_name] is the empty string and [key_pair_name is None] is false,
    although the field is annotated [Optional[str]], which [None] inhabits. *)
Theorem default_key_pair_name_empty_string (s : state) :
  ∃ s', (c ← AppConfig.call;
         k ← getattr c "key_pair_name";
         mret (k, is_None k)) s = Ok (VStr "", false) s'
        ∧ ("key_pair_name", TOptional TStr) ∈ annotations
        ∧ conforms (heap s') (TOptional TStr) VNone = true.
Proof.
  destruct (call_then (λ c, k ← getattr c "key_pair_name"; mret (k, is_None k)) s)
    as (a & d & l & Hf & ->).
  exists (constructed s a d l). split_and!.
  - by erewrite bind_Ok by (by apply getattr_constructed).
  - unfold annotations. set_solver.
  - reflexivity.
Qed.

(** C9: for every instance produced by the default constructor,
    [ubl_certificate_secret_arn] is the empty string. *)
Theorem default_ubl_certificate_secret_arn_empty (s : state) :
  ∃ s', (c ← AppConfig.call; getattr c "ubl_certificate_secret_arn") s
        = Ok (VStr "") s'.
Proof.
  destruct (call_then (λ c, getattr c "ubl_certificate_secret_arn") s)
    as (a & d & l & Hf & ->).
  eexists. by apply getattr_constructed.
Qed.

(** C10: for every instance produced by the default constructor, the items of
    [deadline_client_linux_ami_map] are the single pair [('region', 'ami-id')],
    and subscripting the mapping with ['region'] yields ['ami-id']. *)
Theorem default_ami_map_placeholder_entry (s : state) :
  (∃ s', (c ← AppConfig.call;
          m ← getattr c "deadline_client_linux_ami_map";
          items m) s = Ok [("region", VStr "ami-id")] s')
  ∧ (∃ s', (c ← AppConfig.call;
            m ← getattr c "deadline_client_linux_ami_map";
            getitem m "region") s = Ok (VStr "ami-id") s').
Proof.
  split; py_construct_then_read.
  - unfold items. by rewrite constructed_dict.
  - unfold getitem. by rewrite constructed_dict.
Qed.

(** ** Structure, totality and determinism *)

(** C1: every instance produced by the default constructor is an [AppConfig]
    whose [__dict__] holds exactly the six fields of the data model, and each
    field reads as a value of its annotated type: a mapping from strings to
    strings, a string, a list of license descriptors, an optional string, a
    boolean and a license-acceptance value. *)
Theorem default_exposes_six_typed_fields (s : state) :
  ∃ a s' attrs,
    AppConfig.call s = Ok (VRef a) s'
    ∧ heap s' !! a = Some (OInstance "AppConfig" attrs)
    ∧ dom attrs = list_to_set field_names
    ∧ length field_names = 6
    ∧ NoDup field_names
    ∧ Forall (λ nt, ∃ v, getattr (VRef a) nt.1 s' = Ok v s'
                         ∧ conforms (heap s') nt.2 v = true) annotations.
Proof.
  destruct (call_constructed s) as (a & d & l & Hf & Hc).
  exists a, (constructed s a d l), (default_attrs d l).
  split_and!; [done | by apply constructed_instance | done | done | |].
  - compute_done.
  - unfold annotations.
    repeat apply Forall_cons_2; [..|apply Forall_nil_2];
      (eexists; split; [by apply getattr_constructed|]); cbn [conforms snd].
    + by rewrite constructed_dict.
    + done.
    + by rewrite constructed_list.
    + done.
    + done.
    + done.
Qed.

(** C6: under default construction nothing raises: the constructor returns an
    instance, each of the six fields can then be read and the read leaves the
    state as it was, and reading all six in sequence returns their values. *)
Theorem default_construction_and_reads_total (s : state) :
  is_Raise (AppConfig.call s) = false
  ∧ (∃ c s', AppConfig.call s = Ok c s'
             ∧ Forall (λ name, ∃ v, getattr c name s' = Ok v s') field_names)
  ∧ (∃ vs s', (c ← AppConfig.call; read_fields c) s = Ok vs s'
              ∧ length vs = length field_names).
Proof.
  destruct (call_constructed s) as (a & d & l & Hf & Hc).
  assert (Hreads : Forall (λ name, ∃ v, getattr (VRef a) name (constructed s a d l)
                                        = Ok v (constructed s a d l)) field_names).
  { unfold field_names, annotations. cbn [fmap list_fmap fst].
    repeat apply Forall_cons_2; [..|apply Forall_nil_2];
      eexists; by apply getattr_constructed. }
  split_and!.
  - by rewrite Hc.
  - by exists (VRef a), (constructed s a d l).
  - rewrite (bind_Ok _ _ _ _ _ Hc).
    destruct (read_all_Ok _ _ _ Hreads) as (vs & Hvs & Hlen).
    by exists vs, (constructed s a d l).
Qed.

(** C7: default construction is deterministic.  Two instances constructed in
    any two states are field-wise equal, and so are two instances constructed
    one after the other in the same state; the instance that loading the
    module binds to [config] is field-wise equal to an instance constructed in
    any state, and to one constructed right after the load and compared with
    what the name [config] then denotes. *)
Theorem default_construction_deterministic (s1 s2 : state) :
  (∃ x s1' y s2',
      AppConfig.call s1 = Ok x s1' ∧ AppConfig.call s2 = Ok y s2'
      ∧ fieldwise_equal s1' x s2' y = true)
  ∧ (∃ s', (x ← AppConfig.call;
            y ← AppConfig.call;
            compare_fields x y) s1 = Ok true s')
  ∧ (∃ s1' c y s2',
        config s1 = Ok tt s1' ∧ globals s1' !! "config" = Some c
        ∧ AppConfig.call s2 = Ok y s2'
        ∧ fieldwise_equal s1' c s2' y = true)
  ∧ (∃ s', (config;;
            c ← get_global "config";
            y ← AppConfig.call;
            compare_fields c y) s1 = Ok true s').
Proof.
  destruct (call_constructed s1) as (a1 & d1 & l1 & Hf1 & Hc1).
  destruct (call_constructed s2) as (a2 & d2 & l2 & Hf2 & Hc2).
  destruct (config_constructed s1) as (a0 & d0 & l0 & Hf0 & Hc0).
  split_and!.
  - exists (VRef a1), (constructed s1 a1 d1 l1), (VRef a2), (constructed s2 a2 d2 l2).
    split_and!; [done..|].
    eapply fieldwise_equal_contents; by apply constructed_contents.
  - destruct (call_constructed (constructed s1 a1 d1 l1)) as (a & d & l & Hf & Hc).
    eexists. rewrite (bind_Ok _ _ _ _ _ Hc1), (bind_Ok _ _ _ _ _ Hc).
    unfold compare_fields. do 2 f_equal.
    eapply fieldwise_equal_contents; [|by apply constructed_contents].
    eapply field_contents_frame; [|by apply constructed_contents].
    intros i o. by apply constructed_frame.
  - eexists _, (VRef a0), (VRef a2), _. split_and!; [done| |done|].
    + cbn [globals]. apply lookup_insert_eq.
    + eapply fieldwise_equal_contents; [|by apply constructed_contents].
      eapply field_contents_frame; [|by apply (constructed_contents s1 a0 d0 l0)].
      done.
  - set (s0 := State (heap (constructed s1 a0 d0 l0))
                     (<["config" := VRef a0]> (globals s1))) in *.
    destruct (call_constructed s0) as (a & d & l & Hf & Hc).
    assert (Hg : get_global "config" s0 = Ok (VRef a0) s0).
    { unfold get_global, s0. cbn [globals]. by rewrite lookup_insert_eq. }
    eexists.
    rewrite (bind_Ok _ _ _ _ _ Hc0), (bind_Ok _ _ _ _ _ Hg), (bind_Ok _ _ _ _ _ Hc).
    unfold compare_fields. do 2 f_equal.
    eapply fieldwise_equal_contents; [|by apply constructed_contents].
    eapply field_contents_frame; [|by apply (constructed_contents s1 a0 d0 l0)].
    intros i o. by apply (constructed_frame s0).
Qed.

(** ** Runs on the empty state *)

Example run_construct :
  outcome (AppConfig.call empty_state) = inl (VRef 1).
Proof. by vm_compute. Qed.

Example run_read_all :
  outcome ((c ← AppConfig.call; read_fields c) empty_state)
  = inl [VRef 2; VStr ""; VRef 3; VStr ""; VBool false; VEnum USER_REJECTS_SSPL].
Proof. by vm_compute. Qed.

(** The error branch of an attribute read is taken for a name that
    [__init__] does not assign. *)
Example run_read_unknown :
  outcome ((c ← AppConfig.call; getattr c "deploy_documentdb") empty_state)
  = inr (AttributeError "deploy_documentdb").
Proof. by vm_compute. Qed.

(** Field-wise equality tells an edited instance from a default one. *)
Example run_edited_differs :
  outcome ((x ← AppConfig.call;
            y ← AppConfig.call;
            setattr y "deploy_mongo_db" (VBool true);;
            compare_fields x y) empty_state)
  = inl false.
Proof. by vm_compute. Qed.

(** An edit of the dict of one instance does not reach the other: each
    construction evaluates its own dict display. *)
Example run_dicts_not_shared :
  outcome ((x ← AppConfig.call;
            y ← AppConfig.call;
            mx ← getattr x "deadline_client_linux_ami_map";
            my ← getattr y "deadline_client_linux_ami_map";
            mret (bool_decide (mx = my))) empty_state)
  = inl false.
Proof. by vm_compute. Qed.

(** Annotations are not vacuous: [None] is no [str], and the empty string is
    no license-acceptance value. *)
Example conforms_rejects :
  conforms ∅ TStr VNone = false
  ∧ conforms ∅ TMongoDbSsplLicenseAcceptance (VStr "") = false
  ∧ conforms ∅ (TMapping TStr TStr) (VRef 1) = false.
Proof. by vm_compute. Qed.

(** * Beyond the defaults *)

(** ** [__init__] on an object that already exists *)

(** [__init__] run on any instance: the six defaults are laid over whatever
    attributes the instance had. *)
Lemma init_instance h g a cls attrs :
  h !! a = Some (OInstance cls attrs) →
  ∃ d l,
    h !! d = None ∧ h !! l = None ∧ d ≠ l ∧ a ≠ d ∧ a ≠ l ∧
    AppConfig.__init__ (VRef a) (State h g)
    = Ok tt (State (<[a := OInstance cls (default_attrs d l ∪ attrs)]>
                    (<[l := OList []]>
                     (<[d := ODict {["region" := VStr "ami-id"]}]> h))) g).
Proof.
  intros Ha.
  unfold AppConfig.__init__, new_dict, new_list. cbn [foldl fst snd].
  py_alloc d Hd.
  assert (Had : a ≠ d) by (intros ->; congruence).
  do 2 py_setattr.
  py_alloc l Hl.
  assert (Hal : a ≠ l) by (intros ->; by rewrite lookup_insert_eq in Hl).
  rewrite !lookup_insert_ne in Hl by done.
  assert (Hdl : d ≠ l) by (intros ->; by rewrite lookup_insert_eq in Hl).
  rewrite lookup_insert_ne in Hl by done.
  do 4 py_setattr.
  exists d, l. split_and!; [done..|].
  do 2 f_equal. rewrite !insert_insert_eq.
  rewrite (insert_insert_ne _ l a) by done.
  rewrite !insert_insert_eq. do 2 f_equal.
  unfold default_attrs. by rewrite <- !insert_union_l, (left_id_L ∅ (∪)).
Qed.

(** The fields of an instance whose [__dict__] has the defaults on top. *)
Lemma contents_of_defaults s a cls rest d l :
  heap s !! a = Some (OInstance cls (default_attrs d l ∪ rest)) →
  heap s !! d = Some (ODict {["region" := VStr "ami-id"]}) →
  heap s !! l = Some (OList []) →
  field_content s (VRef a) <$> field_names = Some <$> default_contents.
Proof.
  intros Ha Hd Hl.
  unfold field_names, annotations, default_contents, field_content.
  cbn [fmap list_fmap fst].
  repeat (erewrite (getattr_instance s a) by
            (first [ exact Ha | by apply lookup_union_Some_l ])).
  cbn [content_of]. by rewrite Hd, Hl.
Qed.

Lemma bind_Raise {A B} (m : Py A) (k : A → Py B) s e :
  m s = Raise e → (m ≫= k) s = Raise e.
Proof. intros Hm. unfold mbind, Py_bind. by rewrite Hm. Qed.



(** X2: re-running [__init__] undoes every edit of the six fields: whatever
    the instance held before, afterwards it is field-wise equal to an
    instance that is constructed from scratch. *)
Theorem init_resets_to_defaults s a cls attrs :
  heap s !! a = Some (OInstance cls attrs) →
  ∃ s', (AppConfig.__init__ (VRef a);;
         y ← AppConfig.call;
         compare_fields (VRef a) y) s = Ok true s'.
Proof.
  destruct s as [h g]; cbn [heap]. intros Ha.
  destruct (init_instance h g a cls attrs Ha)
    as (d & l & _ & _ & Hdl & Had & Hal & Hinit).
  match type of Hinit with _ = Ok _ ?s1 =>
    destruct (call_constructed s1) as (a2 & d2 & l2 & Hf & Hc) end.
  eexists. rewrite (bind_Ok _ _ _ _ _ Hinit), (bind_Ok _ _ _ _ _ Hc).
  unfold compare_fields. do 2 f_equal.
  eapply fieldwise_equal_contents; [|by apply constructed_contents].
  apply (contents_of_defaults _ a cls attrs d l);
    apply (constructed_frame _ _ _ _ Hf); py_lookup.
Qed.

Lemma init_resets_to_defaults_witness :
  heap edited_state !! 1%positive
  = Some (OInstance "AppConfig"
            (<["deploy_mongo_db" := VBool true]> {["owner" := VStr "farm"]}))
  ∧ ∃ s', (AppConfig.__init__ (VRef 1);;
           y ← AppConfig.call;
           compare_fields (VRef 1) y) edited_state = Ok true s'.
Proof.
  split; [reflexivity|].
  apply (init_resets_to_defaults edited_state 1 "AppConfig"
           (<["deploy_mongo_db" := VBool true]> {["owner" := VStr "farm"]})).
  reflexivity.
Defined.

(** X3: [__init__] called on [None], a [bool], a [str], a [dict] or a [list]
    raises [AttributeError] at its first assignment, the one to
    [deadline_client_linux_ami_map]. *)
Theorem init_rejects_builtin s self :
  is_builtin s self = true →
  AppConfig.__init__ self s
  = Raise (AttributeError "deadline_client_linux_ami_map").
Proof.
  destruct s as [h g]. intros Hb.
  unfold AppConfig.__init__, new_dict. cbn [foldl fst snd].
  py_alloc d Hd.
  apply bind_Raise. unfold setattr; cbn [heap].
  destruct self as [| | | |a]; try done.
  cbn [is_builtin heap] in Hb.
  destruct (h !! a) as [o|] eqn:Ha; [|done].
  assert (d ≠ a) by congruence.
  rewrite lookup_insert_ne, Ha by done.
  by destruct o.
Qed.

Lemma init_rejects_builtin_witness :
  is_builtin empty_state VNone = true
  ∧ AppConfig.__init__ VNone empty_state
    = Raise (AttributeError "deadline_client_linux_ami_map").
Proof.
  split; [reflexivity|].
  apply (init_rejects_builtin empty_state VNone). reflexivity.
Defined.

(** ** What a construction does to the rest of the state *)

Lemma constructed_extends s a d l :
  fresh3 s a d l →
  heap s ⊆ heap (constructed s a d l)
  ∧ size (heap (constructed s a d l)) = size (heap s) + 3.
Proof.
  intros (Ha & Hd & Hl & Had & Hal & Hdl). unfold constructed; cbn [heap].
  assert (Hl' : <[d := ODict {["region" := VStr "ami-id"]}]> (heap s) !! l = None)
    by (by rewrite lookup_insert_ne).
  assert (Ha' : <[l := OList []]>
                  (<[d := ODict {["region" := VStr "ami-id"]}]> (heap s)) !! a = None)
    by (by rewrite !lookup_insert_ne).
  split.
  - etrans; [apply (insert_subseteq _ d), Hd|].
    etrans; [apply (insert_subseteq _ l), Hl'|].
    apply (insert_subseteq _ a), Ha'.
  - rewrite !map_size_insert_None by done. lia.
Qed.

(** X4: [AppConfig()] returns an object that did not exist before, allocates
    exactly three objects (the instance, its dict and its list), leaves every
    object that existed as it was, and binds no global name. *)
Theorem call_allocates_three (s : state) :
  ∃ a s',
    AppConfig.call s = Ok (VRef a) s'
    ∧ heap s !! a = None
    ∧ heap s ⊆ heap s'
    ∧ size (heap s') = size (heap s) + 3
    ∧ globals s' = globals s.
Proof.
  destruct (call_constructed s) as (a & d & l & Hf & Hc).
  destruct (constructed_extends s a d l Hf) as [Hsub Hsize].
  exists a, (constructed s a d l). split_and!; try done. apply Hf.
Qed.

(** The heap after two constructions in a row. *)
Lemma two_constructed s :
  ∃ a1 d1 l1 a2 d2 l2,
    NoDup [a1; d1; l1; a2; d2; l2]
    ∧ fresh3 s a1 d1 l1
    ∧ fresh3 (constructed s a1 d1 l1) a2 d2 l2
    ∧ AppConfig.call s = Ok (VRef a1) (constructed s a1 d1 l1)
    ∧ AppConfig.call (constructed s a1 d1 l1)
      = Ok (VRef a2) (constructed (constructed s a1 d1 l1) a2 d2 l2).
Proof.
  destruct (call_constructed s) as (a1 & d1 & l1 & Hf1 & Hc1).
  destruct (call_constructed (constructed s a1 d1 l1))
    as (a2 & d2 & l2 & Hf2 & Hc2).
  exists a1, d1, l1, a2, d2, l2. split_and!; try done.
  pose proof (constructed_instance s a1 d1 l1) as Ha.
  pose proof (constructed_dict s a1 d1 l1 Hf1) as Hd.
  pose proof (constructed_list s a1 d1 l1 Hf1) as Hl.
  destruct Hf1 as (_ & _ & _ & ? & ? & ?).
  destruct Hf2 as (? & ? & ? & ? & ? & ?).
  assert (a1 ≠ a2 ∧ a1 ≠ d2 ∧ a1 ≠ l2) as (? & ? & ?)
    by (split_and!; intros ->; congruence).
  assert (d1 ≠ a2 ∧ d1 ≠ d2 ∧ d1 ≠ l2) as (? & ? & ?)
    by (split_and!; intros ->; congruence).
  assert (l1 ≠ a2 ∧ l1 ≠ d2 ∧ l1 ≠ l2) as (? & ? & ?)
    by (split_and!; intros ->; congruence).
  repeat (apply NoDup_cons_2;
          [rewrite ?not_elem_of_cons; split_and?; first [done | apply not_elem_of_nil]|]).
  apply NoDup_nil_2.
Qed.

(** X5: two constructions share nothing: the two instances, the two dicts
    held in [deadline_client_linux_ami_map] and the two lists held in
    [ubl_licenses] are six different objects. *)
Theorem instances_share_nothing (s : state) :
  ∃ addrs s',
    (x ← AppConfig.call;
     y ← AppConfig.call;
     mx ← getattr x "deadline_client_linux_ami_map";
     ux ← getattr x "ubl_licenses";
     my ← getattr y "deadline_client_linux_ami_map";
     uy ← getattr y "ubl_licenses";
     mret [x; mx; ux; y; my; uy]) s = Ok (VRef <$> addrs) s'
    ∧ length addrs = 6
    ∧ NoDup addrs.
Proof.
  destruct (two_constructed s)
    as (a1 & d1 & l1 & a2 & d2 & l2 & Hnd & Hf1 & Hf2 & Hc1 & Hc2).
  exists [a1; d1; l1; a2; d2; l2]. eexists. split_and!; [|done..].
  rewrite (bind_Ok _ _ _ _ _ Hc1), (bind_Ok _ _ _ _ _ Hc2).
  pose proof (constructed_frame _ a2 d2 l2 Hf2 _ _ (constructed_instance s a1 d1 l1))
    as Hx.
  erewrite bind_Ok by (by apply (getattr_instance _ _ _ _ _ _ Hx)).
  erewrite bind_Ok by (by apply (getattr_instance _ _ _ _ _ _ Hx)).
  erewrite bind_Ok by (by apply getattr_constructed).
  erewrite bind_Ok by (by apply getattr_constructed).
  reflexivity.
Qed.

(** ** Two instances side by side *)

Lemma constructed_default_at s a d l :
  fresh3 s a d l → default_at (constructed s a d l) a d l.
Proof.
  intros Hf. split_and!;
    [apply constructed_instance | by apply constructed_dict | by apply constructed_list].
Qed.

Lemma default_at_frame s a d l a' d' l' :
  fresh3 s a' d' l' → default_at s a d l → default_at (constructed s a' d' l') a d l.
Proof. intros Hf (Ha & Hd & Hl). split_and!; by apply constructed_frame. Qed.

(** A program that starts with two constructions continues in a state where
    both instances hold the defaults in six different objects. *)
Lemma two_calls_then {B} (k : value → value → Py B) s :
  ∃ a1 d1 l1 a2 d2 l2 s2,
    NoDup [a1; d1; l1; a2; d2; l2]
    ∧ default_at s2 a1 d1 l1 ∧ default_at s2 a2 d2 l2
    ∧ (x ← AppConfig.call; y ← AppConfig.call; k x y) s = k (VRef a1) (VRef a2) s2.
Proof.
  destruct (two_constructed s)
    as (a1 & d1 & l1 & a2 & d2 & l2 & Hnd & Hf1 & Hf2 & Hc1 & Hc2).
  exists a1, d1, l1, a2, d2, l2, (constructed (constructed s a1 d1 l1) a2 d2 l2).
  split_and!; [done| | |].
  - by apply default_at_frame, constructed_default_at.
  - by apply constructed_default_at.
  - by rewrite (bind_Ok _ _ _ _ _ Hc1), (bind_Ok _ _ _ _ _ Hc2).
Qed.

(** Replacing an object other than the three of a default instance leaves
    the instance's fields at their defaults. *)
Lemma contents_after_insert s a d l i o :
  default_at s a d l → i ≠ a → i ≠ d → i ≠ l →
  field_content (State (<[i := o]> (heap s)) (globals s)) (VRef a) <$> field_names
  = Some <$> default_contents.
Proof.
  intros (Ha & Hd & Hl) Hia Hid Hil.
  apply (contents_of_defaults _ a "AppConfig" ∅ d l); cbn [heap];
    rewrite lookup_insert_ne by done; [|done..].
  by rewrite (right_id_L ∅ (∪)).
Qed.

Lemma setitem_dict s a items key v :
  heap s !! a = Some (ODict items) →
  setitem (VRef a) key v s
  = Ok tt (State (<[a := ODict (<[key := v]> items)]> (heap s)) (globals s)).
Proof. intros Ha. unfold setitem. by rewrite Ha. Qed.

Lemma append_list s a elems v :
  heap s !! a = Some (OList elems) →
  append (VRef a) v s
  = Ok tt (State (<[a := OList (elems ++ [v])]> (heap s)) (globals s)).
Proof. intros Ha. unfold append. by rewrite Ha. Qed.

(** Pairwise distinctness out of [NoDup], for the six objects of two
    instances. *)
Lemma NoDup_six (a1 d1 l1 a2 d2 l2 : addr) :
  NoDup [a1; d1; l1; a2; d2; l2] →
  (a1 ≠ a2 ∧ a1 ≠ d2 ∧ a1 ≠ l2) ∧ (d1 ≠ a2 ∧ d1 ≠ d2 ∧ d1 ≠ l2)
  ∧ (l1 ≠ a2 ∧ l1 ≠ d2 ∧ l1 ≠ l2).
Proof.
  rewrite !NoDup_cons, !not_elem_of_cons. tauto.
Qed.

(** X6: an edit of one instance does not reach the other, whichever of the
    two is edited: after rebinding any of the six fields to any value, after
    storing any entry in the dict of [deadline_client_linux_ami_map], and
    after appending any value to the list of [ubl_licenses], the fields of
    the other instance still hold the defaults. *)
Theorem edits_do_not_reach_other_instance
    (s : state) (edit_first : bool) (key : string) (v : value) :
  Forall (λ name,
            ∃ o s', (x ← AppConfig.call;
                     y ← AppConfig.call;
                     setattr (if edit_first then x else y) name v;;
                     mret (if edit_first then y else x)) s = Ok o s'
                    ∧ field_content s' o <$> field_names = Some <$> default_contents)
         field_names
  ∧ (∃ o s', (x ← AppConfig.call;
              y ← AppConfig.call;
              m ← getattr (if edit_first then x else y) "deadline_client_linux_ami_map";
              setitem m key v;;
              mret (if edit_first then y else x)) s = Ok o s'
             ∧ field_content s' o <$> field_names = Some <$> default_contents)
  ∧ (∃ o s', (x ← AppConfig.call;
              y ← AppConfig.call;
              u ← getattr (if edit_first then x else y) "ubl_licenses";
              append u v;;
              mret (if edit_first then y else x)) s = Ok o s'
             ∧ field_content s' o <$> field_names = Some <$> default_contents).
Proof.
  split_and!.
  - apply Forall_forall. intros name _.
    match goal with |- ∃ o s', (_ ≫= λ x, _ ≫= λ y, @?k x y) s = _ ∧ _ =>
      destruct (two_calls_then k s)
        as (a1 & d1 & l1 & a2 & d2 & l2 & s2 & Hnd & H1 & H2 & ->) end.
    apply NoDup_six in Hnd as ((? & ? & ?) & (? & ? & ?) & (? & ? & ?)).
    destruct edit_first; eexists _, _.
    + erewrite bind_Ok by (apply setattr_instance, H1).
      split; [reflexivity|]. apply (contents_after_insert s2 a2 d2 l2); [done|congruence..].
    + erewrite bind_Ok by (apply setattr_instance, H2).
      split; [reflexivity|]. apply (contents_after_insert s2 a1 d1 l1); [done|congruence..].
  - match goal with |- ∃ o s', (_ ≫= λ x, _ ≫= λ y, @?k x y) s = _ ∧ _ =>
      destruct (two_calls_then k s)
        as (a1 & d1 & l1 & a2 & d2 & l2 & s2 & Hnd & H1 & H2 & ->) end.
    apply NoDup_six in Hnd as ((? & ? & ?) & (? & ? & ?) & (? & ? & ?)).
    destruct edit_first; eexists _, _.
    + erewrite bind_Ok by (by eapply getattr_instance; [apply H1|]).
      erewrite bind_Ok by (apply setitem_dict, H1).
      split; [reflexivity|]. apply (contents_after_insert s2 a2 d2 l2); [done|congruence..].
    + erewrite bind_Ok by (by eapply getattr_instance; [apply H2|]).
      erewrite bind_Ok by (apply setitem_dict, H2).
      split; [reflexivity|]. apply (contents_after_insert s2 a1 d1 l1); [done|congruence..].
  - match goal with |- ∃ o s', (_ ≫= λ x, _ ≫= λ y, @?k x y) s = _ ∧ _ =>
      destruct (two_calls_then k s)
        as (a1 & d1 & l1 & a2 & d2 & l2 & s2 & Hnd & H1 & H2 & ->) end.
    apply NoDup_six in Hnd as ((? & ? & ?) & (? & ? & ?) & (? & ? & ?)).
    destruct edit_first; eexists _, _.
    + erewrite bind_Ok by (by eapply getattr_instance; [apply H1|]).
      erewrite bind_Ok by (apply append_list, H1).
      split; [reflexivity|]. apply (contents_after_insert s2 a2 d2 l2); [done|congruence..].
    + erewrite bind_Ok by (by eapply getattr_instance; [apply H2|]).
      erewrite bind_Ok by (apply append_list, H2).
      split; [reflexivity|]. apply (contents_after_insert s2 a1 d1 l1); [done|congruence..].
Qed.

(** ** The module-level instance *)

(** X7: the name [config] denotes one shared object: after the module is
    loaded, a value assigned to any of the six fields through one read of
    [config] is what the same field yields through the next read. *)
Theorem config_is_shared (s : state) (v : value) :
  Forall (λ name,
            ∃ s', (config;;
                   c1 ← get_global "config";
                   setattr c1 name v;;
                   c2 ← get_global "config";
                   getattr c2 name) s = Ok v s')
         field_names.
Proof.
  apply Forall_forall. intros name _.
  destruct (config_constructed s) as (a & d & l & Hf & Hc).
  set (s1 := State (heap (constructed s a d l))
                   (<["config" := VRef a]> (globals s))) in *.
  assert (Hg : ∀ st, globals st = globals s1 →
                     get_global "config" st = Ok (VRef a) st).
  { intros st Hst. unfold get_global. rewrite Hst. unfold s1; cbn [globals].
    by rewrite lookup_insert_eq. }
  eexists.
  rewrite (bind_Ok _ _ _ _ _ Hc), (bind_Ok _ _ _ _ _ (Hg s1 eq_refl)).
  erewrite bind_Ok by (apply setattr_instance, constructed_instance).
  erewrite bind_Ok by (by apply Hg).
  eapply getattr_instance; [apply lookup_insert_eq|apply lookup_insert_eq].
Qed.


(** X9: the default AMI map knows no region but the placeholder:
    subscripting it with any key other than ['region'] raises [KeyError] for
    that key. *)
Theorem default_ami_map_unknown_region (s : state) (key : string) :
  key ≠ "region" →
  (c ← AppConfig.call;
   m ← getattr c "deadline_client_linux_ami_map";
   getitem m key) s = Raise (KeyError key).
Proof.
  intros Hkey.
  destruct (call_then (λ c, m ← getattr c "deadline_client_linux_ami_map";
                            getitem m key) s) as (a & d & l & Hf & ->).
  erewrite bind_Ok by (by apply getattr_constructed).
  unfold getitem. rewrite constructed_dict by done.
  by rewrite lookup_singleton_ne.
Qed.

Lemma default_ami_map_unknown_region_witness :
  "us-west-2" ≠ "region"
  ∧ (c ← AppConfig.call;
     m ← getattr c "deadline_client_linux_ami_map";
     getitem m "us-west-2") empty_state = Raise (KeyError "us-west-2").
Proof.
  split; [done|].
  apply (default_ami_map_unknown_region empty_state "us-west-2"). done.
Defined.

(** ** Names that [__init__] does not assign *)

Lemma default_attrs_unknown d l name :
  name ∉ field_names → default_attrs d l !! name = None.
Proof.
  intros Hname. apply not_elem_of_dom.
  by replace (dom (default_attrs d l)) with (list_to_set (C := gset string) field_names)
    by reflexivity; rewrite elem_of_list_to_set.
Qed.

(** X10: the class body declares nothing but [__init__], so reading an
    attribute whose name is not one of the six fields (and is no
    double-underscore name) from a default instance raises [AttributeError]
    for that name. *)
Theorem unknown_field_read_raises (s : state) (name : string) :
  name ∉ field_names → is_dunder name = false →
  (c ← AppConfig.call; getattr c name) s = Raise (AttributeError name).
Proof.
  intros Hname _.
  destruct (call_then (λ c, getattr c name) s) as (a & d & l & Hf & ->).
  unfold getattr. rewrite constructed_instance.
  by rewrite default_attrs_unknown.
Qed.

Lemma unknown_field_read_raises_witness :
  ("deploy_mongodb" ∉ field_names) ∧ is_dunder "deploy_mongodb" = false
  ∧ (c ← AppConfig.call; getattr c "deploy_mongodb") empty_state
    = Raise (AttributeError "deploy_mongodb").
Proof.
  assert (Hname : "deploy_mongodb" ∉ field_names).
  { unfold field_names, annotations; cbn [fmap list_fmap fst].
    rewrite !not_elem_of_cons. split_and!; first [done | apply not_elem_of_nil]. }
  split_and!; [exact Hname | reflexivity |].
  apply (unknown_field_read_raises empty_state "deploy_mongodb" Hname). reflexivity.
Defined.

(** X11: an assignment to a misspelt field does not raise: the class has no
    [__slots__], so the assignment creates a new attribute, which reads back
    as assigned, and the six fields keep their defaults. *)
Theorem unknown_field_write_accepted (s : state) (name : string) (v : value) :
  name ∉ field_names → is_dunder name = false →
  ∃ c s',
    (c ← AppConfig.call; setattr c name v;; mret c) s = Ok c s'
    ∧ getattr c name s' = Ok v s'
    ∧ field_content s' c <$> field_names = Some <$> default_contents.
Proof.
  intros Hname _.
  destruct (call_then (λ c, setattr c name v;; mret c) s) as (a & d & l & Hf & ->).
  pose proof (constructed_default_at s a d l Hf) as (Ha & Hd & Hl).
  destruct Hf as (_ & _ & _ & Had & Hal & _).
  eexists (VRef a), _. split_and!.
  - erewrite bind_Ok by (apply setattr_instance, Ha). reflexivity.
  - eapply getattr_instance; [apply lookup_insert_eq|apply lookup_insert_eq].
  - apply (contents_of_defaults _ a "AppConfig" {[name := v]} d l); cbn [heap].
    + rewrite lookup_insert_eq. do 2 f_equal.
      by apply insert_union_singleton_r, default_attrs_unknown.
    + by rewrite lookup_insert_ne.
    + by rewrite lookup_insert_ne.
Qed.

Lemma unknown_field_write_accepted_witness :
  ("deploy_mongodb" ∉ field_names) ∧ is_dunder "deploy_mongodb" = false
  ∧ ∃ c s',
      (c ← AppConfig.call; setattr c "deploy_mongodb" (VBool true);; mret c) empty_state
      = Ok c s'
      ∧ getattr c "deploy_mongodb" s' = Ok (VBool true) s'
      ∧ field_content s' c <$> field_names = Some <$> default_contents.
Proof.
  assert (Hname : "deploy_mongodb" ∉ field_names).
  { unfold field_names, annotations; cbn [fmap list_fmap fst].
    rewrite !not_elem_of_cons. split_and!; first [done | apply not_elem_of_nil]. }
  split_and!; [exact Hname | reflexivity |].
  apply (unknown_field_write_accepted empty_state "deploy_mongodb" (VBool true) Hname).
  reflexivity.
Defined.
